(** * Docker-Bake / fastapi-microservices: gateway, auth-service, user-service

    A shallow embedding of the three FastAPI applications under
    [fastapi-microservices/] and the properties of their request handling.

    - [auth-service/main.py] and [user-service/main.py] are stubs whose
      handlers return constant dictionaries.
    - [gateway/main.py] answers [/health] itself and proxies [GET /auth/...]
      and [GET /users/...] to the two services with [httpx.AsyncClient].

    The handlers are a few lines; what a request gets is decided by what
    FastAPI and Starlette do around them, and that is modelled next to them:

    - [FastAPI(title=...)] registers the routes of the API documentation
      ([/openapi.json], [/docs], [/docs/oauth2-redirect], [/redoc]) before
      the decorated ones;
    - a route's path is compiled to a regular expression that is matched
      from the start of the path and closed by [$], which in Python also
      matches just before a line feed that ends the path; [{name}] is
      [[^/]+] and [{name:path}] is [.*], which takes no line feed;
    - routes are tried in registration order; a path that matches with
      another method is answered 405; a path that matches nothing but does
      so with a slash added or its trailing slashes removed is answered with
      a 307 redirect; anything else 404;
    - a returned value goes through [jsonable_encoder] and is rendered as a
      compact JSON body with status 200; an exception nobody catches, in the
      handler or in the rendering, becomes the plain-text 500 answer.

    Paths are the decoded path component of the request; the query string is
    a separate field, as the framework hands them over.  Of an outbound call
    the model records the arguments the handler gives to [client.get]; what
    the HTTP client makes of the URL string (it parses it, so [?], [#] and
    dot segments in it have their usual meaning) is on the other side of
    that call, with the network.  The text of the documentation pages is
    not modelled, nor the headers of a response ([Location], [Allow])
    besides the content type. *)

From Stdlib Require Import List String Ascii ZArith Bool Lia DecimalString
  Permutation.
Import ListNotations.
Open Scope string_scope.

(* ------------------------------------------------------------------ *)
(** ** JSON values and their rendering *)

(** The values a handler returns and [response.json()] produces.  A Python
    [dict] keeps insertion order, so an object is an association list.  A
    finite float is given by the text Python writes for it ([repr]), which
    is also what the renderer writes; the floats that are not finite are
    values too, but not ones the renderer accepts.  A string is UTF-8 text;
    [JUnencodable] is a string that holds a surrogate code point on its own
    (JSON can escape one, and Python keeps it), which UTF-8 cannot encode. *)
#[local] Unset Elimination Schemes.
Inductive json : Type :=
| JNull
| JBool (b : bool)
| JInt (n : Z)
| JFloat (repr : string)
| JNaN
| JInfinity (negative : bool)
| JStr (s : string)
| JUnencodable (s : string)
| JList (l : list json)
| JDict (d : list (string * json)).
#[local] Set Elimination Schemes.

Definition dquote : ascii := ascii_of_nat 34.

Definition hex_digit (n : nat) : ascii :=
  match n with
  | 0 => "0" | 1 => "1" | 2 => "2" | 3 => "3" | 4 => "4" | 5 => "5"
  | 6 => "6" | 7 => "7" | 8 => "8" | 9 => "9" | 10 => "a" | 11 => "b"
  | 12 => "c" | 13 => "d" | 14 => "e" | _ => "f"
  end%char.

(** [json.dumps(..., ensure_ascii=False)] escapes the quote, the backslash
    and the control characters below 0x20; every other byte is copied. *)
Definition escape_char (c : ascii) : string :=
  let n := nat_of_ascii c in
  if Nat.eqb n 34 then String "\" (String dquote "")
  else if Nat.eqb n 92 then "\\"
  else if Nat.eqb n 8 then "\b"
  else if Nat.eqb n 12 then "\f"
  else if Nat.eqb n 10 then "\n"
  else if Nat.eqb n 13 then "\r"
  else if Nat.eqb n 9 then "\t"
  else if Nat.ltb n 32 then
    "\u00" ++ String (hex_digit (n / 16)) (String (hex_digit (n mod 16)) "")
  else String c "".

Fixpoint escape (s : string) : string :=
  match s with
  | EmptyString => ""
  | String c r => escape_char c ++ escape r
  end.

Definition quote (s : string) : string :=
  String dquote (escape s ++ String dquote "").

Definition int_repr (n : Z) : string := NilZero.string_of_int (Z.to_int n).

Fixpoint join (sep : string) (l : list string) : string :=
  match l with
  | [] => ""
  | [x] => x
  | x :: r => x ++ sep ++ join sep r
  end.

(** The text of a value in the compact form,
    [json.dumps(content, ensure_ascii=False, separators=(",", ":"))].  For a
    float that is not finite this is what [json.dumps] writes when it is
    allowed to; the renderer below is not. *)
Fixpoint json_dumps (v : json) : string :=
  match v with
  | JNull => "null"
  | JBool true => "true"
  | JBool false => "false"
  | JInt n => int_repr n
  | JFloat repr => repr
  | JNaN => "NaN"
  | JInfinity false => "Infinity"
  | JInfinity true => "-Infinity"
  | JStr s => quote s
  | JUnencodable s => quote s
  | JList l => "[" ++ join "," (map json_dumps l) ++ "]"
  | JDict d =>
      "{" ++ join "," (map (fun kv => quote (fst kv) ++ ":" ++ json_dumps (snd kv)) d)
          ++ "}"
  end.

(** [JSONResponse.render] passes [allow_nan=False] and encodes the text as
    UTF-8: a value that holds a float that is not finite, or a string that
    cannot be encoded, makes it raise. *)
Fixpoint renderable (v : json) : bool :=
  match v with
  | JNaN | JInfinity _ | JUnencodable _ => false
  | JList l => forallb renderable l
  | JDict d => forallb (fun kv => renderable (snd kv)) d
  | _ => true
  end.

Fixpoint strip_prefix (p s : string) : option string :=
  match p with
  | EmptyString => Some s
  | String a p' =>
      match s with
      | EmptyString => None
      | String b s' => if Ascii.eqb a b then strip_prefix p' s' else None
      end
  end.

Definition starts_with (p s : string) : bool :=
  match strip_prefix p s with Some _ => true | None => false end.

(** [jsonable_encoder], through which FastAPI passes what a handler
    returns: on the values here it copies everything except that, at every
    level, it leaves out the entries of a [dict] whose key starts with
    [_sa]. *)
Fixpoint jsonable_encoder (v : json) : json :=
  match v with
  | JList l => JList (map jsonable_encoder l)
  | JDict d =>
      JDict ((fix entries (d : list (string * json)) : list (string * json) :=
                match d with
                | [] => []
                | (k, x) :: r =>
                    if starts_with "_sa" k then entries r
                    else (k, jsonable_encoder x) :: entries r
                end) d)
  | _ => v
  end.

(* ------------------------------------------------------------------ *)
(** ** Requests, responses and the outbound client *)

Inductive method : Type := GET | POST | PUT | PATCH | DELETE | HEAD | OPTIONS.

Definition method_eqb (a b : method) : bool :=
  match a, b with
  | GET, GET | POST, POST | PUT, PUT | PATCH, PATCH
  | DELETE, DELETE | HEAD, HEAD | OPTIONS, OPTIONS => true
  | _, _ => false
  end.

Definition headers := list (string * string).

(** An inbound request as the framework hands it to the router. *)
Record request : Type := {
  req_method : method;
  req_path : string;
  req_query : string;
  req_headers : headers;
  req_body : string
}.

(** The pages FastAPI serves on its own account. *)
Inductive page : Type := OpenAPISchema | SwaggerUI | OAuth2Redirect | ReDoc.

(** The body of a response: bytes, or one of the framework's pages, whose
    text is generated by the framework and not spelled out here. *)
Inductive content : Type :=
| Bytes (s : string)
| Page (p : page).

Coercion Bytes : string >-> content.

(** An answer of an application.  The content type is empty when the
    response has none. *)
Record response : Type := {
  status : Z;
  content_type : string;
  body : content
}.

(** The arguments of one call of the HTTP client: [client.get(url)] is a GET
    of the URL string [o_url], with no headers and no body of the caller's.
    The client parses the string and adds headers of its own. *)
Record out_request : Type := {
  o_method : method;
  o_url : string;
  o_headers : headers;
  o_body : string
}.

Record up_response : Type := {
  up_status : Z;
  up_content_type : string;
  up_content : string
}.

(** The ways a call of the client ends: the upstream answers, the
    connection is refused, the client's timeout expires first, or the call
    fails otherwise (a URL the client does not accept, a broken exchange). *)
Inductive outcome : Type :=
| Replied (r : up_response)
| Refused
| TimedOut
| Failed.

(** The client with the network behind it: what a call with given
    arguments ends in. *)
Definition upstream := out_request -> outcome.

(** The exceptions the proxy handlers can meet: [httpx.ConnectError],
    [httpx.ReadTimeout], another error of the client, and the exception
    [response.json()] raises on a body it cannot decode. *)
Inductive exn : Type := ConnectError | ReadTimeout | ClientError | JSONDecodeError.

Inductive event : Type :=
| ClientOpen
| Called (r : out_request)
| ClientClose.

(** Handlers run against the client and log what they do with it; they end
    with a value or with an exception nobody caught. *)
Definition M (A : Type) : Type := upstream -> list event -> list event * (exn + A).

Definition ret {A} (a : A) : M A := fun _ tr => (tr, inr a).

Definition raise {A} (e : exn) : M A := fun _ tr => (tr, inl e).

Definition bind {A B} (m : M A) (k : A -> M B) : M B :=
  fun net tr =>
    match m net tr with
    | (tr', inr a) => k a net tr'
    | (tr', inl e) => (tr', inl e)
    end.

Notation "x <- m ;; k" := (bind m (fun x => k))
  (at level 61, m at next level, right associativity).

(** [async with httpx.AsyncClient() as client: ...]: the client is closed
    when the block is left, by [return] or by an exception alike, and an
    exception goes on to the caller. *)
Definition with_AsyncClient {A} (block : M A) : M A :=
  fun net tr =>
    let (tr', res) := block net (tr ++ [ClientOpen])%list in
    ((tr' ++ [ClientClose])%list, res).

(** [await client.get(url)]: the call is logged with its arguments and ends
    as the client and the network decide. *)
Definition client_get (url : string) : M up_response :=
  fun net tr =>
    let rq := {| o_method := GET; o_url := url; o_headers := []; o_body := "" |} in
    ((tr ++ [Called rq])%list,
     match net rq with
     | Replied r => inr r
     | Refused => inl ConnectError
     | TimedOut => inl ReadTimeout
     | Failed => inl ClientError
     end).

(* ------------------------------------------------------------------ *)
(** ** Routing *)

Definition LF : ascii := ascii_of_nat 10.

Fixpoint has_slash (s : string) : bool :=
  match s with
  | EmptyString => false
  | String c r => Ascii.eqb c "/" || has_slash r
  end.

Fixpoint has_line_feed (s : string) : bool :=
  match s with
  | EmptyString => false
  | String c r => Ascii.eqb c LF || has_line_feed r
  end.

(** [$]: the end of the path, or the place just before a line feed that
    ends it. *)
Definition at_end (s : string) : bool :=
  match s with
  | EmptyString => true
  | String c EmptyString => Ascii.eqb c LF
  | String _ (String _ _) => false
  end.

(** The group [.*] followed by [$]: the dot takes no line feed, so the
    group is the text up to the first line feed, and the pattern matches
    when [$] holds there. *)
Fixpoint path_param (s : string) : option string :=
  match s with
  | EmptyString => Some EmptyString
  | String c r =>
      if Ascii.eqb c LF then
        match r with
        | EmptyString => Some EmptyString
        | String _ _ => None
        end
      else
        match path_param r with
        | Some t => Some (String c t)
        | None => None
        end
  end.

(** The two path convertors the source uses: [{name}] is [[^/]+], one
    non-empty segment (a line feed is no slash and is taken), [{name:path}]
    is [.*]. *)
Inductive convertor : Type := StrParam | PathParam.

(** Whether the convertor's group followed by [$] matches a text, and what
    the group holds then. *)
Definition convertor_accepts (c : convertor) (s : string) : bool :=
  match c with
  | PathParam => match path_param s with Some _ => true | None => false end
  | StrParam => negb (String.eqb s "") && negb (has_slash s)
  end.

Definition convertor_binds (c : convertor) (s : string) : option string :=
  match c with
  | PathParam => path_param s
  | StrParam => if convertor_accepts StrParam s then Some s else None
  end.

(** A route of an application.  [Route0 m "/health" h] is
    [@app.m("/health")] over a handler without arguments;
    [Route1 m "/auth/" "path" PathParam h] is [@app.m("/auth/{path:path}")]
    over a handler of the path parameter; [RoutePage path p] is a route the
    framework adds for one of its pages, which answers GET and HEAD. *)
Inductive route : Type :=
| Route0 (m : method) (path : string) (h : M json)
| Route1 (m : method) (prefix name : string) (c : convertor) (h : string -> M json)
| RoutePage (path : string) (p : page).

(** The routes [FastAPI(title=...)] registers when it is created, with the
    documentation left at its default addresses. *)
Definition FastAPI : list route :=
  [ RoutePage "/openapi.json" OpenAPISchema;
    RoutePage "/docs" SwaggerUI;
    RoutePage "/docs/oauth2-redirect" OAuth2Redirect;
    RoutePage "/redoc" ReDoc ].

Definition route_allows (r : route) (m : method) : bool :=
  match r with
  | Route0 m' _ _ => method_eqb m' m
  | Route1 m' _ _ _ _ => method_eqb m' m
  | RoutePage _ _ => method_eqb m GET || method_eqb m HEAD
  end.

(** A literal path followed by [$]. *)
Definition match_literal (p path : string) : bool :=
  match strip_prefix p path with
  | Some rest => at_end rest
  | None => false
  end.

(** What a matched route gives the request to: a handler with its
    parameter bound, or a page. *)
Inductive target : Type :=
| Run (action : M json)
| Show (p : page).

(** Matching the path alone. *)
Definition match_path (r : route) (path : string) : option target :=
  match r with
  | Route0 _ p h => if match_literal p path then Some (Run h) else None
  | Route1 _ p _ c h =>
      match strip_prefix p path with
      | Some rest =>
          match convertor_binds c rest with
          | Some x => Some (Run (h x))
          | None => None
          end
      | None => None
      end
  | RoutePage p pg => if match_literal p path then Some (Show pg) else None
  end.

Inductive matching : Type :=
| MatchNone
| MatchPartial
| MatchFull (t : target).

Definition matches (r : route) (req : request) : matching :=
  match match_path r (req_path req) with
  | None => MatchNone
  | Some t => if route_allows r (req_method req) then MatchFull t else MatchPartial
  end.

Inductive resolution : Type :=
| Handle (action : M json)
| ShowPage (p : page)
| Redirect
| MethodNotAllowed
| NotFound.

(** Routes are tried in the order they were registered; the first one that
    matches path and method takes the request.  A route that matches the
    path only makes the answer 405. *)
Fixpoint find_route (routes : list route) (req : request) (partial : bool)
  : resolution :=
  match routes with
  | [] => if partial then MethodNotAllowed else NotFound
  | r :: rest =>
      match matches r req with
      | MatchFull (Run act) => Handle act
      | MatchFull (Show p) => ShowPage p
      | MatchPartial => find_route rest req true
      | MatchNone => find_route rest req partial
      end
  end.

(** Whether a route's path pattern takes a path, and the routes of a table
    that do. *)
Definition is_hit (path : string) (r : route) : bool :=
  match match_path r path with Some _ => true | None => false end.

Definition hits (routes : list route) (path : string) : list route :=
  filter (is_hit path) routes.

(** [str.rstrip("/")] *)
Fixpoint rstrip_slash (s : string) : string :=
  match s with
  | EmptyString => EmptyString
  | String c r =>
      match rstrip_slash r with
      | EmptyString => if Ascii.eqb c "/" then EmptyString else String c EmptyString
      | String c' r' => String c (String c' r')
      end
  end.

Fixpoint ends_with_slash (s : string) : bool :=
  match s with
  | EmptyString => false
  | String c EmptyString => Ascii.eqb c "/"
  | String _ r => ends_with_slash r
  end.

(** The path the router tries when nothing matched: without its trailing
    slashes, or with one added. *)
Definition redirect_path (path : string) : string :=
  if ends_with_slash path then rstrip_slash path else path ++ "/".

Definition redirects (routes : list route) (path : string) : bool :=
  negb (String.eqb path "/") &&
  match hits routes (redirect_path path) with [] => false | _ :: _ => true end.

(** The router as a whole. *)
Definition resolve (routes : list route) (req : request) : resolution :=
  match find_route routes req false with
  | NotFound => if redirects routes (req_path req) then Redirect else NotFound
  | found => found
  end.

Definition json_response (code : Z) (v : json) : response :=
  {| status := code; content_type := "application/json"; body := json_dumps v |}.

Definition detail (msg : string) : json := JDict [("detail", JStr msg)].

Definition internal_server_error : response :=
  {| status := 500; content_type := "text/plain; charset=utf-8";
     body := "Internal Server Error" |}.

Definition page_response (p : page) : response :=
  {| status := 200;
     content_type := match p with
                     | OpenAPISchema => "application/json"
                     | _ => "text/html; charset=utf-8"
                     end;
     body := Page p |}.

Definition redirect_response : response :=
  {| status := 307; content_type := ""; body := "" |}.

(** What the framework makes of a handler's end: a returned value is
    encoded and rendered into a 200 JSON answer; an exception the handler
    let through, or one the rendering raises, gives the 500 answer. *)
Definition respond (res : exn + json) : response :=
  match res with
  | inr v =>
      if renderable (jsonable_encoder v)
      then json_response 200 (jsonable_encoder v)
      else internal_server_error
  | inl _ => internal_server_error
  end.

(** One request through an application: the outbound log and the answer. *)
Definition serve (routes : list route) (net : upstream) (req : request)
  : list event * response :=
  match resolve routes req with
  | Handle act => let (tr, res) := act net [] in (tr, respond res)
  | ShowPage p => ([], page_response p)
  | Redirect => ([], redirect_response)
  | MethodNotAllowed => ([], json_response 405 (detail "Method Not Allowed"))
  | NotFound => ([], json_response 404 (detail "Not Found"))
  end.
(* ------------------------------------------------------------------ *)
(** ** A decoder for the closed examples *)

(** The gateway's handlers below take the decoder behind [response.json()]
    as a parameter, so what is proved of them holds of any decoder.  The
    examples on concrete bodies run this one.  It reads JSON texts the way
    Python's [json.loads] does, except that it gives up ([None]) on
    fractional or exponent numbers, on [NaN] and [Infinity], and on [\u]
    escapes, none of which occurs in the bodies used here. *)

Definition is_ws (c : ascii) : bool :=
  let n := nat_of_ascii c in
  Nat.eqb n 32 || Nat.eqb n 9 || Nat.eqb n 10 || Nat.eqb n 13.

Fixpoint skip_ws (s : string) : string :=
  match s with
  | String c r => if is_ws c then skip_ws r else s
  | EmptyString => s
  end.

Definition digit_of (c : ascii) : option Z :=
  let n := nat_of_ascii c in
  if Nat.leb 48 n && Nat.leb n 57 then Some (Z.of_nat (n - 48)) else None.

Fixpoint parse_digits (s : string) (acc : Z) : Z * string :=
  match s with
  | String c r =>
      match digit_of c with
      | Some d => parse_digits r (10 * acc + d)
      | None => (acc, s)
      end
  | EmptyString => (acc, s)
  end.

Definition starts_float (s : string) : bool :=
  match s with
  | String c _ => Ascii.eqb c "." || Ascii.eqb c "e" || Ascii.eqb c "E"
  | EmptyString => false
  end.

(** An integer literal: an optional minus sign, then a single zero or
    digits that do not start with zero. *)
Definition parse_int (s : string) : option (Z * string) :=
  let (neg, s1) :=
    match s with
    | String c r => if Ascii.eqb c "-" then (true, r) else (false, s)
    | EmptyString => (false, s)
    end in
  match s1 with
  | String c r =>
      match digit_of c with
      | Some d =>
          let (n, rest) := if Z.eqb d 0 then (0%Z, r) else parse_digits r d in
          if starts_float rest then None
          else Some (if neg then Z.opp n else n, rest)
      | None => None
      end
  | EmptyString => None
  end.

Definition unescape (c : ascii) : option ascii :=
  if Ascii.eqb c dquote then Some dquote
  else if Ascii.eqb c "\" then Some "\"%char
  else if Ascii.eqb c "/" then Some "/"%char
  else if Ascii.eqb c "b" then Some (ascii_of_nat 8)
  else if Ascii.eqb c "f" then Some (ascii_of_nat 12)
  else if Ascii.eqb c "n" then Some (ascii_of_nat 10)
  else if Ascii.eqb c "r" then Some (ascii_of_nat 13)
  else if Ascii.eqb c "t" then Some (ascii_of_nat 9)
  else None.

(** The text of a string literal, read from just after its opening quote. *)
Fixpoint parse_string (s : string) : option (string * string) :=
  match s with
  | EmptyString => None
  | String c r =>
      if Ascii.eqb c dquote then Some (EmptyString, r)
      else if Ascii.eqb c "\" then
        match r with
        | String e r' =>
            match unescape e, parse_string r' with
            | Some ch, Some (t, rest) => Some (String ch t, rest)
            | _, _ => None
            end
        | EmptyString => None
        end
      else if Nat.ltb (nat_of_ascii c) 32 then None
      else
        match parse_string r with
        | Some (t, rest) => Some (String c t, rest)
        | None => None
        end
  end.

(** Assignment into a [dict]: a key already there keeps its place. *)
Fixpoint dict_set (d : list (string * json)) (k : string) (v : json)
  : list (string * json) :=
  match d with
  | [] => [(k, v)]
  | (k', v') :: r =>
      if String.eqb k' k then (k, v) :: r else (k', v') :: dict_set r k v
  end.

Fixpoint parse_value (fuel : nat) (s : string) {struct fuel}
  : option (json * string) :=
  match fuel with
  | O => None
  | S f =>
      match skip_ws s with
      | EmptyString => None
      | String c r =>
          if Ascii.eqb c "{" then
            match skip_ws r with
            | String c' r' =>
                if Ascii.eqb c' "}" then Some (JDict [], r')
                else parse_members f r []
            | EmptyString => None
            end
          else if Ascii.eqb c "[" then
            match skip_ws r with
            | String c' r' =>
                if Ascii.eqb c' "]" then Some (JList [], r')
                else parse_elements f r []
            | EmptyString => None
            end
          else if Ascii.eqb c dquote then
            match parse_string r with
            | Some (t, rest) => Some (JStr t, rest)
            | None => None
            end
          else
            match strip_prefix "null" (String c r),
                  strip_prefix "true" (String c r),
                  strip_prefix "false" (String c r) with
            | Some rest, _, _ => Some (JNull, rest)
            | _, Some rest, _ => Some (JBool true, rest)
            | _, _, Some rest => Some (JBool false, rest)
            | _, _, _ =>
                match parse_int (String c r) with
                | Some (n, rest) => Some (JInt n, rest)
                | None => None
                end
            end
      end
  end

with parse_elements (fuel : nat) (s : string) (acc : list json) {struct fuel}
  : option (json * string) :=
  match fuel with
  | O => None
  | S f =>
      match parse_value f s with
      | Some (v, rest) =>
          match skip_ws rest with
          | String c r =>
              if Ascii.eqb c "," then parse_elements f r (acc ++ [v])%list
              else if Ascii.eqb c "]" then Some (JList (acc ++ [v])%list, r)
              else None
          | EmptyString => None
          end
      | None => None
      end
  end

with parse_members (fuel : nat) (s : string) (acc : list (string * json))
  {struct fuel} : option (json * string) :=
  match fuel with
  | O => None
  | S f =>
      match skip_ws s with
      | String q r =>
          if Ascii.eqb q dquote then
            match parse_string r with
            | Some (k, rest) =>
                match skip_ws rest with
                | String c r2 =>
                    if Ascii.eqb c ":" then
                      match parse_value f r2 with
                      | Some (v, rest2) =>
                          match skip_ws rest2 with
                          | String c' r3 =>
                              if Ascii.eqb c' "," then
                                parse_members f r3 (dict_set acc k v)
                              else if Ascii.eqb c' "}" then
                                Some (JDict (dict_set acc k v), r3)
                              else None
                          | EmptyString => None
                          end
                      | None => None
                      end
                    else None
                | EmptyString => None
                end
            | None => None
            end
          else None
      | EmptyString => None
      end
  end.

Definition json_loads (s : string) : option json :=
  match parse_value (2 * String.length s + 2) s with
  | Some (v, rest) =>
      match skip_ws rest with
      | EmptyString => Some v
      | String _ _ => None
      end
  | None => None
  end.

(* ------------------------------------------------------------------ *)
(** ** The three applications *)

(** [response.json()]: the body decoded, or the exception of a body that
    does not decode. *)
Definition response_json (decode : string -> option json) (r : up_response)
  : M json :=
  match decode (up_content r) with
  | Some v => ret v
  | None => raise JSONDecodeError
  end.

(** [auth-service/main.py] *)
Module AuthService.

Definition health : M json :=
  ret (JDict [("status", JStr "healthy"); ("service", JStr "auth")]).

Definition login : M json :=
  ret (JDict [("token", JStr "mock-jwt-token")]).

Definition validate : M json :=
  ret (JDict [("valid", JBool true); ("user_id", JStr "123")]).

Definition app : list route :=
  (FastAPI ++
   [ Route0 GET "/health" health;
     Route0 POST "/login" login;
     Route0 POST "/validate" validate ])%list.

End AuthService.

(** [user-service/main.py] *)
Module UserService.

Definition health : M json :=
  ret (JDict [("status", JStr "healthy"); ("service", JStr "user")]).

Definition get_user (user_id : string) : M json :=
  ret (JDict [("id", JStr user_id); ("name", JStr "John Doe");
              ("email", JStr "john@example.com")]).

Definition create_user : M json :=
  ret (JDict [("id", JStr "456"); ("message", JStr "User created")]).

Definition app : list route :=
  (FastAPI ++
   [ Route0 GET "/health" health;
     Route1 GET "/users/" "user_id" StrParam get_user;
     Route0 POST "/users" create_user ])%list.

End UserService.

(** [gateway/main.py] *)
Module Gateway.
Section Handlers.

(** The decoder behind [response.json()]: [None] where it raises. *)
Variable json_decode : string -> option json.

Definition health : M json :=
  ret (JDict [("status", JStr "healthy"); ("service", JStr "gateway")]).

Definition auth_proxy (path : string) : M json :=
  with_AsyncClient (
    response <- client_get ("http://auth-service:8000/" ++ path) ;;
    response_json json_decode response).

Definition user_proxy (path : string) : M json :=
  with_AsyncClient (
    response <- client_get ("http://user-service:8000/" ++ path) ;;
    response_json json_decode response).

Definition app : list route :=
  (FastAPI ++
   [ Route0 GET "/health" health;
     Route1 GET "/auth/" "path" PathParam auth_proxy;
     Route1 GET "/users/" "path" PathParam user_proxy ])%list.

End Handlers.
End Gateway.

(** A stand-in upstream for the examples: a call whose URL string starts
    with the address of one of the two services is answered with what that
    service's application answers at the rest of the string taken as the
    path, and any other call is refused.  It is test data, not a model of
    the HTTP client: the URL string is not parsed any further.  The text of
    a documentation page is not modelled, so a call that would fetch one
    fails. *)
Definition url_path (base url : string) : option string :=
  match strip_prefix base url with
  | Some rest => Some ("/" ++ rest)
  | None => None
  end.

Definition as_upstream (app : list route) (rq : out_request) (path : string)
  : outcome :=
  let req := {| req_method := o_method rq; req_path := path; req_query := "";
                req_headers := o_headers rq; req_body := o_body rq |} in
  let r := snd (serve app (fun _ => Refused) req) in
  match body r with
  | Bytes s =>
      Replied {| up_status := status r; up_content_type := content_type r;
                 up_content := s |}
  | Page _ => Failed
  end.

Definition services : upstream :=
  fun rq =>
    match url_path "http://auth-service:8000/" (o_url rq),
          url_path "http://user-service:8000/" (o_url rq) with
    | Some p, _ => as_upstream AuthService.app rq p
    | _, Some p => as_upstream UserService.app rq p
    | _, _ => Refused
    end.

(** The calls of the client in a log, in order. *)
Fixpoint calls (tr : list event) : list out_request :=
  match tr with
  | [] => []
  | Called r :: rest => r :: calls rest
  | _ :: rest => calls rest
  end.

(** The clients still open at the end of a log that starts with [n] open. *)
Fixpoint open_clients (n : nat) (tr : list event) : nat :=
  match tr with
  | [] => n
  | ClientOpen :: rest => open_clients (S n) rest
  | ClientClose :: rest => open_clients (pred n) rest
  | Called _ :: rest => open_clients n rest
  end.

(** The two proxied routes of the gateway, with the prefix each answers
    under and the host its handler calls. *)
Inductive backend : Type := AuthBackend | UserBackend.

Definition prefix_of (b : backend) : string :=
  match b with AuthBackend => "/auth" | UserBackend => "/users" end.

Definition host_of (b : backend) : string :=
  match b with AuthBackend => "auth-service" | UserBackend => "user-service" end.

(** The handler registered under the prefix of [b]. *)
Definition handler_of (decode : string -> option json) (b : backend)
  : string -> M json :=
  match b with
  | AuthBackend => Gateway.auth_proxy decode
  | UserBackend => Gateway.user_proxy decode
  end.

(** A path matches a prefix when it is the prefix or continues it after a
    slash. *)
Definition under_prefix (P path : string) : bool :=
  String.eqb P path ||
  match strip_prefix (P ++ "/") path with Some _ => true | None => false end.

(** An inbound request for the remainder [x] under the prefix of [b]. *)
Definition inbound (m : method) (b : backend) (x query : string)
  (hs : headers) (content : string) : request :=
  {| req_method := m; req_path := prefix_of b ++ "/" ++ x; req_query := query;
     req_headers := hs; req_body := content |}.

(** A bare GET of [x] on the backend's host, port 8000: the call
    [client.get("http://<host>:8000/" + x)]. *)
Definition upstream_get (b : backend) (x : string) : out_request :=
  {| o_method := GET; o_url := "http://" ++ host_of b ++ ":8000/" ++ x;
     o_headers := []; o_body := "" |}.

(** A call of the client as the application that receives it at [path]
    sees it. *)
Definition upstream_request (rq : out_request) (path : string) : request :=
  {| req_method := o_method rq; req_path := path; req_query := "";
     req_headers := o_headers rq; req_body := o_body rq |}.

Definition get (path : string) : request :=
  {| req_method := GET; req_path := path; req_query := "";
     req_headers := []; req_body := "" |}.

(* ------------------------------------------------------------------ *)
(** ** Properties *)

Example dumps_health :
  json_dumps (JDict [("status", JStr "healthy"); ("service", JStr "gateway")])
  = "{" ++ quote "status" ++ ":" ++ quote "healthy" ++ ","
    ++ quote "service" ++ ":" ++ quote "gateway" ++ "}".
Proof. reflexivity. Qed.

Example loads_spaced :
  json_loads ("{ " ++ quote "a" ++ " : [1, -20, true, null], " ++ quote "b" ++ ": {} }")
  = Some (JDict [("a", JList [JInt 1; JInt (-20); JBool true; JNull]); ("b", JDict [])]).
Proof. vm_compute. reflexivity. Qed.

(** *** Patterns *)

Lemma strip_prefix_app : forall p s r,
  strip_prefix p s = Some r -> s = p ++ r.
Proof.
  induction p as [|a p IH]; intros s r H; simpl in H.
  - inversion H. reflexivity.
  - destruct s as [|c s]; [discriminate | ].
    destruct (Ascii.eqb_spec a c) as [->|]; [ | discriminate].
    simpl. f_equal. apply IH. exact H.
Qed.

Lemma at_end_true : forall s,
  at_end s = true -> s = "" \/ s = String LF "".
Proof.
  intros [|c [|c' s]] H; cbn in H; try discriminate.
  - left. reflexivity.
  - right. apply Ascii.eqb_eq in H. subst c. reflexivity.
Qed.

Lemma match_literal_true : forall p path,
  match_literal p path = true -> path = p \/ path = p ++ String LF "".
Proof.
  unfold match_literal. intros p path H.
  destruct (strip_prefix p path) as [rest|] eqn:E; [ | discriminate].
  apply strip_prefix_app in E. subst path.
  destruct (at_end_true rest H) as [->| ->]; [left | right]; [ | reflexivity].
  clear. induction p as [|c p IH]; cbn; [reflexivity | f_equal; exact IH].
Qed.

(** A text without line feed is bound whole by [{name:path}]. *)
Lemma path_param_whole : forall x,
  has_line_feed x = false -> path_param x = Some x.
Proof.
  induction x as [|c x IH]; cbn [path_param has_line_feed]; intros H;
    [reflexivity | ].
  apply orb_false_elim in H. destruct H as [Hc Hx].
  rewrite Hc, (IH Hx). reflexivity.
Qed.

(** What [{name:path}] binds holds no line feed, and is the text itself or
    the text without the line feed that ends it. *)
Lemma path_param_some : forall x y,
  path_param x = Some y ->
  has_line_feed y = false /\ (x = y \/ x = y ++ String LF "").
Proof.
  induction x as [|c x IH]; cbn [path_param]; intros y H.
  - inversion H. split; [reflexivity | left; reflexivity].
  - destruct (Ascii.eqb c LF) eqn:Hc.
    + apply Ascii.eqb_eq in Hc. subst c.
      destruct x; [ | discriminate]. inversion H.
      split; [reflexivity | right; reflexivity].
    + destruct (path_param x) as [t|]; [ | discriminate]. inversion H.
      destruct (IH t eq_refl) as [Hlf Hx].
      split.
      * cbn [has_line_feed]. rewrite Hc, Hlf. reflexivity.
      * destruct Hx as [-> | ->]; [left | right]; reflexivity.
Qed.

Lemma is_hit_page : forall path p pg,
  is_hit path (RoutePage p pg) = match_literal p path.
Proof.
  intros. unfold is_hit, match_path. destruct (match_literal p path); reflexivity.
Qed.

Lemma is_hit_route0 : forall path m p h,
  is_hit path (Route0 m p h) = match_literal p path.
Proof.
  intros. unfold is_hit, match_path. destruct (match_literal p path); reflexivity.
Qed.

Lemma is_hit_route1 : forall path m p n c h,
  is_hit path (Route1 m p n c h)
  = match strip_prefix p path with
    | Some rest => convertor_accepts c rest
    | None => false
    end.
Proof.
  intros. unfold is_hit, match_path.
  destruct (strip_prefix p path) as [rest|]; [ | reflexivity].
  destruct c; cbn.
  - destruct (negb (rest =? "") && negb (has_slash rest)); reflexivity.
  - destruct (path_param rest); reflexivity.
Qed.

(** Tests of a literal or a prefix against a path that starts with known
    characters are settled by computation. *)
Ltac eval_tests :=
  repeat match goal with
         | |- context [match_literal ?p ?s] =>
             let v := eval cbv in (match_literal p s) in
             progress change (match_literal p s) with v
         | |- context [strip_prefix ?p ?s] =>
             let v := eval cbv in (strip_prefix p s) in
             progress change (strip_prefix p s) with v
         end.

(** *** The router *)

Lemma find_route_handle : forall routes req partial act,
  find_route routes req partial = Handle act ->
  exists r, In r routes
            /\ match_path r (req_path req) = Some (Run act)
            /\ route_allows r (req_method req) = true.
Proof.
  induction routes as [|r routes IH]; intros req partial act H; cbn in H.
  - destruct partial; discriminate.
  - unfold matches in H.
    destruct (match_path r (req_path req)) as [[a|p]|] eqn:E.
    + destruct (route_allows r (req_method req)) eqn:Ea.
      * inversion H; subst a. exists r. repeat split; auto. left. reflexivity.
      * destruct (IH _ _ _ H) as (r' & Hin & Hm & Ha).
        exists r'. repeat split; auto. right. exact Hin.
    + destruct (route_allows r (req_method req)); [discriminate | ].
      destruct (IH _ _ _ H) as (r' & Hin & Hm & Ha).
      exists r'. repeat split; auto. right. exact Hin.
    + destruct (IH _ _ _ H) as (r' & Hin & Hm & Ha).
      exists r'. repeat split; auto. right. exact Hin.
Qed.

Lemma find_route_hits : forall routes req partial,
  find_route routes req partial
  = find_route (hits routes (req_path req)) req partial.
Proof.
  induction routes as [|r routes IH]; intros req partial; [reflexivity | ].
  unfold hits. cbn [filter]. unfold is_hit at 1.
  cbn [find_route]. unfold matches at 1.
  destruct (match_path r (req_path req)) as [t|] eqn:E.
  - cbn [find_route]. unfold matches. rewrite E.
    destruct (route_allows r (req_method req)); [reflexivity | apply IH].
  - apply IH.
Qed.

(** A path no route takes is a redirect or a not-found, and the request
    runs no handler. *)
Lemma resolve_no_hit : forall routes req,
  hits routes (req_path req) = [] ->
  resolve routes req
  = if redirects routes (req_path req) then Redirect else NotFound.
Proof.
  intros routes req H. unfold resolve.
  rewrite find_route_hits, H. reflexivity.
Qed.

Lemma resolve_handle : forall routes req act,
  resolve routes req = Handle act -> find_route routes req false = Handle act.
Proof.
  unfold resolve. intros routes req act H.
  destruct (find_route routes req false); try exact H.
  destruct (redirects routes (req_path req)); discriminate.
Qed.

Lemma serve_no_hit : forall routes net req,
  hits routes (req_path req) = [] ->
  serve routes net req
  = ([], if redirects routes (req_path req) then redirect_response
         else json_response 404 (detail "Not Found")).
Proof.
  intros routes net req H. unfold serve. rewrite (resolve_no_hit _ _ H).
  destruct (redirects routes (req_path req)); reflexivity.
Qed.

(** *** The proxy handlers, step by step *)

Section GatewayFacts.

Variable decode : string -> option json.
Variable net : upstream.

(** How a proxied call ends, as the handler sees it. *)
Definition fetched (b : backend) (x : string) : exn + json :=
  match net (upstream_get b x) with
  | Replied r =>
      match decode (up_content r) with
      | Some v => inr v
      | None => inl JSONDecodeError
      end
  | Refused => inl ConnectError
  | TimedOut => inl ReadTimeout
  | Failed => inl ClientError
  end.

Lemma auth_proxy_run : forall x tr,
  Gateway.auth_proxy decode x net tr =
  ((tr ++ [ClientOpen; Called (upstream_get AuthBackend x); ClientClose])%list,
   fetched AuthBackend x).
Proof.
  intros x tr.
  unfold Gateway.auth_proxy, with_AsyncClient, bind, client_get, fetched,
    response_json, upstream_get, host_of. simpl.
  destruct (net _) as [r| | |]; simpl;
    try (repeat rewrite <- app_assoc; reflexivity).
  destruct (decode (up_content r)); unfold ret, raise;
    repeat rewrite <- app_assoc; reflexivity.
Qed.

Lemma user_proxy_run : forall x tr,
  Gateway.user_proxy decode x net tr =
  ((tr ++ [ClientOpen; Called (upstream_get UserBackend x); ClientClose])%list,
   fetched UserBackend x).
Proof.
  intros x tr.
  unfold Gateway.user_proxy, with_AsyncClient, bind, client_get, fetched,
    response_json, upstream_get, host_of. simpl.
  destruct (net _) as [r| | |]; simpl;
    try (repeat rewrite <- app_assoc; reflexivity).
  destruct (decode (up_content r)); unfold ret, raise;
    repeat rewrite <- app_assoc; reflexivity.
Qed.

Lemma handler_of_run : forall b x tr,
  handler_of decode b x net tr =
  ((tr ++ [ClientOpen; Called (upstream_get b x); ClientClose])%list, fetched b x).
Proof.
  intros b x tr. destruct b; [apply auth_proxy_run | apply user_proxy_run].
Qed.

(** A GET under a proxied prefix whose remainder the route binds reaches the
    handler of that prefix with what was bound. *)
Lemma find_proxied : forall m b x y q hs bd,
  path_param x = Some y ->
  find_route (Gateway.app decode) (inbound m b x q hs bd) false
  = if method_eqb GET m then Handle (handler_of decode b y) else MethodNotAllowed.
Proof.
  intros m b x y q hs bd Hx.
  destruct b; unfold Gateway.app, FastAPI, inbound, prefix_of;
    cbn [app find_route]; unfold matches, match_path;
    cbn [req_path req_method]; eval_tests; cbv iota;
    cbn [convertor_binds route_allows]; rewrite Hx;
    destruct (method_eqb GET m); reflexivity.
Qed.

Lemma serve_proxied : forall b x y q hs bd,
  path_param x = Some y ->
  serve (Gateway.app decode) net (inbound GET b x q hs bd) =
  ([ClientOpen; Called (upstream_get b y); ClientClose], respond (fetched b y)).
Proof.
  intros b x y q hs bd Hx. unfold serve, resolve.
  rewrite (find_proxied GET b x y q hs bd Hx). cbn [method_eqb].
  rewrite handler_of_run. reflexivity.
Qed.

(** Any other method there is turned away by the router. *)
Lemma serve_other_method : forall m b x y q hs bd,
  path_param x = Some y ->
  m <> GET ->
  serve (Gateway.app decode) net (inbound m b x q hs bd) =
  ([], json_response 405 (detail "Method Not Allowed")).
Proof.
  intros m b x y q hs bd Hx Hm. unfold serve, resolve.
  rewrite (find_proxied m b x y q hs bd Hx).
  destruct m; try congruence; reflexivity.
Qed.

(** A remainder the route does not bind is taken by no route at all. *)
Lemma unbound_no_hit : forall b x,
  path_param x = None ->
  hits (Gateway.app decode) (prefix_of b ++ "/" ++ x) = [].
Proof.
  intros b x Hx.
  destruct b; unfold hits, Gateway.app, FastAPI, prefix_of; cbn [app filter];
    rewrite !is_hit_page, !is_hit_route0, !is_hit_route1;
    eval_tests; cbv iota; cbn [convertor_accepts]; rewrite Hx; reflexivity.
Qed.

(** The routes of the gateway that run a handler, and what they run. *)
Lemma gateway_runs : forall r path act,
  In r (Gateway.app decode) ->
  match_path r path = Some (Run act) ->
  (r = Route0 GET "/health" Gateway.health /\ act = Gateway.health)
  \/ exists b x y,
       path = prefix_of b ++ "/" ++ x /\ path_param x = Some y
       /\ act = handler_of decode b y
       /\ forall m, route_allows r m = method_eqb GET m.
Proof.
  intros r path act Hin Hm.
  unfold Gateway.app, FastAPI in Hin. cbn [app] in Hin.
  destruct Hin as [<-|[<-|[<-|[<-|[<-|[<-|[<-|[]]]]]]]]; cbn [match_path] in Hm;
    try (destruct (match_literal _ path); discriminate).
  - destruct (match_literal "/health" path); [ | discriminate].
    inversion Hm. left. split; reflexivity.
  - destruct (strip_prefix "/auth/" path) as [x|] eqn:E; [ | discriminate].
    apply strip_prefix_app in E. cbn [convertor_binds] in Hm.
    destruct (path_param x) as [y|] eqn:Ey; [ | discriminate]. inversion Hm.
    right. exists AuthBackend, x, y. repeat split; auto.
  - destruct (strip_prefix "/users/" path) as [x|] eqn:E; [ | discriminate].
    apply strip_prefix_app in E. cbn [convertor_binds] in Hm.
    destruct (path_param x) as [y|] eqn:Ey; [ | discriminate]. inversion Hm.
    right. exists UserBackend, x, y. repeat split; auto.
Qed.

(** Every request to the gateway either causes no outbound call at all, or
    is a GET under a proxied prefix that the route binds and causes the one
    call of its handler. *)
Lemma gateway_cases : forall req,
  let run := serve (Gateway.app decode) net req in
  fst run = []
  \/ exists b x y,
       req_path req = prefix_of b ++ "/" ++ x /\ path_param x = Some y
       /\ req_method req = GET
       /\ run = ([ClientOpen; Called (upstream_get b y); ClientClose],
                 respond (snd (handler_of decode b y net []))).
Proof.
  intros req run. subst run. unfold serve.
  destruct (resolve (Gateway.app decode) req) as [act| | | |] eqn:E;
    try (left; reflexivity).
  apply resolve_handle in E.
  destruct (find_route_handle _ _ _ _ E) as (r & Hin & Hm & Ha).
  destruct (gateway_runs r _ act Hin Hm)
    as [[_ ->]|(b & x & y & Hp & Hx & -> & Hall)].
  - left. reflexivity.
  - right. exists b, x, y. rewrite Hall in Ha.
    destruct (req_method req); try discriminate.
    rewrite handler_of_run. repeat split; auto.
Qed.

End GatewayFacts.

(** *** Forwarding *)

(** The claim of C1 at one remainder: a GET of [P/x] causes one call, of the
    URL [http://<host>:8000/x]. *)
Definition forwards_remainder (decode : string -> option json) (net : upstream)
  (b : backend) (x : string) : Prop :=
  map o_url (calls (fst (serve (Gateway.app decode) net (inbound GET b x "" [] ""))))
  = ["http://" ++ host_of b ++ ":8000/" ++ x].

(** C1, counterexample.  A remainder with a line feed inside, as in
    [GET /auth/a%0Ab], is not forwarded: [{path:path}] is [.*], which takes
    no line feed, so no route matches, the answer is 404 and the client is
    not called. *)
Lemma remainder_with_line_feed_not_forwarded :
  ~ forwards_remainder json_loads services AuthBackend ("a" ++ String LF "b").
Proof.
  unfold forwards_remainder. vm_compute. discriminate.
Qed.

(** A line feed that ends the remainder is not part of what the route
    binds: [GET /auth/abc%0A] calls [.../abc]. *)
Example final_line_feed_dropped :
  map o_url (calls (fst (serve (Gateway.app json_loads) services
                           (get ("/auth/abc" ++ String LF "")))))
  = ["http://auth-service:8000/abc"].
Proof. reflexivity. Qed.

(** C1, amended.  For each proxied prefix ([/auth] to auth-service, [/users]
    to user-service) and every remainder [x], an inbound GET of [P/x] makes
    the gateway call the HTTP client with the URL string
    [http://<host>:8000/] followed by what the route binds of [x]: all of
    [x] when [x] holds no line feed, [x] without a line feed that ends it,
    and no call at all when [x] holds a line feed elsewhere.  This holds
    whatever the network answers and whatever query, headers or body the
    inbound request carries. *)
Theorem proxy_upstream_url :
  forall (decode : string -> option json) (net : upstream) (b : backend)
         (x q : string) (hs : headers) (bd : string),
    map o_url (calls (fst (serve (Gateway.app decode) net (inbound GET b x q hs bd))))
    = match path_param x with
      | Some y => ["http://" ++ host_of b ++ ":8000/" ++ y]
      | None => []
      end
    /\ (has_line_feed x = false -> path_param x = Some x).
Proof.
  intros decode net b x q hs bd. split; [ | apply path_param_whole].
  destruct (path_param x) as [y|] eqn:Hx.
  - rewrite (serve_proxied decode net b x y q hs bd Hx). reflexivity.
  - rewrite serve_no_hit by (apply unbound_no_hit; exact Hx). reflexivity.
Qed.

Lemma proxy_upstream_url_witness :
  map o_url (calls (fst (serve (Gateway.app json_loads) services
                           (inbound GET UserBackend "123" "" [] ""))))
  = ["http://user-service:8000/123"]
  /\ path_param "123" = Some "123".
Proof.
  split.
  - exact (proj1 (proxy_upstream_url json_loads services UserBackend "123" "" [] "")).
  - exact (proj2 (proxy_upstream_url json_loads services UserBackend "123" "" [] "")
             eq_refl).
Defined.

Example proxy_users_123 :
  map o_url (calls (fst (serve (Gateway.app json_loads) services (get "/users/123"))))
  = ["http://user-service:8000/123"].
Proof. reflexivity. Qed.

(** C10.  The URL string handed to the client holds what the route binds
    of the path remainder and nothing else: for every remainder the route
    binds, two inbound requests that differ only in their query string
    cause the same single call, a GET of [http://<host>:8000/<bound>]
    without headers or body, and get the same answer, so no part of the
    inbound query string reaches the upstream. *)
Theorem query_string_dropped :
  forall (decode : string -> option json) (net : upstream) (b : backend)
         (x y q q' : string) (hs : headers) (bd : string),
    path_param x = Some y ->
    calls (fst (serve (Gateway.app decode) net (inbound GET b x q hs bd)))
    = [upstream_get b y]
    /\ serve (Gateway.app decode) net (inbound GET b x q hs bd)
       = serve (Gateway.app decode) net (inbound GET b x q' hs bd).
Proof.
  intros decode net b x y q q' hs bd Hx.
  rewrite !(serve_proxied decode net b x y _ hs bd Hx). split; reflexivity.
Qed.

Lemma query_string_dropped_witness :
  calls (fst (serve (Gateway.app json_loads) services
                (inbound GET AuthBackend "health" "token=abc" [] "")))
  = [upstream_get AuthBackend "health"]
  /\ serve (Gateway.app json_loads) services
       (inbound GET AuthBackend "health" "token=abc" [] "")
     = serve (Gateway.app json_loads) services
         (inbound GET AuthBackend "health" "" [] "").
Proof.
  exact (query_string_dropped json_loads services AuthBackend "health" "health"
           "token=abc" "" [] "" eq_refl).
Defined.

(** *** Relaying the upstream's answer *)

(** The claim of C2 at one request: every upstream answer the gateway
    received comes back with its status, its content type and its bytes. *)
Definition relays_verbatim (decode : string -> option json) (net : upstream)
  (req : request) : Prop :=
  forall rq r,
    In rq (calls (fst (serve (Gateway.app decode) net req))) ->
    net rq = Replied r ->
    let resp := snd (serve (Gateway.app decode) net req) in
    status resp = up_status r /\ body resp = up_content r
    /\ content_type resp = up_content_type r.

(** C2, counterexample.  With the user service behind it, [GET /users/123]
    on the gateway is forwarded as [GET http://user-service:8000/123]; the
    user service has no route for [/123] and answers 404, and the gateway
    answers 200. *)
Lemma relay_status_lost : ~ relays_verbatim json_loads services (get "/users/123").
Proof.
  intros H.
  specialize (H (upstream_get UserBackend "123")
                {| up_status := 404; up_content_type := "application/json";
                   up_content := json_dumps (detail "Not Found") |}).
  simpl in H. destruct H as [Hs _]; [left; reflexivity | reflexivity | ].
  vm_compute in Hs. discriminate.
Qed.

(** The body is decoded and rendered again, so its bytes change as soon as
    the upstream does not write the compact form. *)
Example relay_body_reencoded :
  let up := {| up_status := 200; up_content_type := "application/json";
               up_content := "{" ++ quote "id" ++ ": 1}" |} in
  body (snd (serve (Gateway.app json_loads) (fun _ => Replied up) (get "/users/1")))
  = "{" ++ quote "id" ++ ":1}".
Proof. vm_compute. reflexivity. Qed.

(** A decoded value goes through [jsonable_encoder] before it is rendered,
    which leaves out the keys that start with [_sa]; and a value with a
    float that is not finite (the body [1e400] decodes to one) makes the
    rendering raise. *)
Example relay_encoder_drops_sa_keys :
  let up := {| up_status := 200; up_content_type := "application/json";
               up_content := "{" ++ quote "_sa_x" ++ ":1," ++ quote "a" ++ ":2}" |} in
  body (snd (serve (Gateway.app json_loads) (fun _ => Replied up) (get "/users/1")))
  = "{" ++ quote "a" ++ ":2}".
Proof. vm_compute. reflexivity. Qed.

Example relay_infinity_fails :
  snd (serve (Gateway.app (fun _ => Some (JList [JInfinity false])))
         (fun _ => Replied {| up_status := 200;
                              up_content_type := "application/json";
                              up_content := "[1e400]" |})
         (get "/users/1"))
  = internal_server_error.
Proof. reflexivity. Qed.

(** C2, amended.  When the upstream answers a GET that a proxy route
    binds, the gateway decodes the answer's body as JSON and returns the
    decoded value as a fresh JSON response: status 200 and content type
    [application/json] whatever the upstream's status and content type
    were, and a body that is the compact rendering of the decoded value
    after [jsonable_encoder] (which leaves out the keys that start with
    [_sa]).  A body that does not decode raises in the handler, a decoded
    value with a float that is not finite raises in the rendering, and in
    both cases the gateway answers 500. *)
Theorem relay_decoded_json :
  forall (decode : string -> option json) (net : upstream) (b : backend)
         (x y q : string) (hs : headers) (bd : string) (r : up_response),
    path_param x = Some y ->
    net (upstream_get b y) = Replied r ->
    snd (serve (Gateway.app decode) net (inbound GET b x q hs bd))
    = match decode (up_content r) with
      | Some v =>
          if renderable (jsonable_encoder v)
          then {| status := 200; content_type := "application/json";
                  body := json_dumps (jsonable_encoder v) |}
          else internal_server_error
      | None => internal_server_error
      end.
Proof.
  intros decode net b x y q hs bd r Hx Hnet.
  rewrite (serve_proxied decode net b x y q hs bd Hx).
  unfold fetched. rewrite Hnet. cbn [snd].
  destruct (decode (up_content r)); reflexivity.
Qed.

Lemma relay_decoded_json_witness :
  services (upstream_get UserBackend "123")
  = Replied {| up_status := 404; up_content_type := "application/json";
               up_content := json_dumps (detail "Not Found") |}
  /\ snd (serve (Gateway.app json_loads) services
            (inbound GET UserBackend "123" "" [] ""))
     = {| status := 200; content_type := "application/json";
          body := json_dumps (detail "Not Found") |}.
Proof.
  split; [reflexivity | ].
  exact (relay_decoded_json json_loads services UserBackend "123" "123" "" [] ""
           {| up_status := 404; up_content_type := "application/json";
              up_content := json_dumps (detail "Not Found") |} eq_refl eq_refl).
Defined.

(** *** Upstream failures *)

(** The claims of C3 and C4 at one request: the upstream's failure comes
    back as the gateway's own answer with the status [code]. *)
Definition translates_failure (code : Z) (decode : string -> option json)
  (net : upstream) (req : request) : Prop :=
  status (snd (serve (Gateway.app decode) net req)) = code.

(** The handlers have no [try]: the client's exception leaves them. *)
Example auth_proxy_raises :
  Gateway.auth_proxy json_loads "login" (fun _ => Refused) []
  = ([ClientOpen; Called (upstream_get AuthBackend "login"); ClientClose],
     inl ConnectError).
Proof. reflexivity. Qed.

Example user_proxy_raises :
  Gateway.user_proxy json_loads "123" (fun _ => TimedOut) []
  = ([ClientOpen; Called (upstream_get UserBackend "123"); ClientClose],
     inl ReadTimeout).
Proof. reflexivity. Qed.

(** C3, counterexample.  With the upstream refusing the connection,
    [GET /auth/login] is not answered 502: the [ConnectError] leaves the
    handler and the framework answers 500. *)
Lemma refused_is_not_502 :
  ~ translates_failure 502 json_loads (fun _ => Refused) (get "/auth/login").
Proof.
  unfold translates_failure. vm_compute. discriminate.
Qed.

(** C3, amended.  When the upstream of a GET that a proxy route binds
    refuses the connection or cannot be reached, the handler ends with the
    client's connection error uncaught, after one call and with the client
    closed; the caller still gets a well-formed response, the framework's
    plain-text 500, and not a 502 or a structured [UpstreamUnavailable]. *)
Theorem refused_upstream_gives_500 :
  forall (decode : string -> option json) (net : upstream) (b : backend)
         (x y q : string) (hs : headers) (bd : string),
    path_param x = Some y ->
    net (upstream_get b y) = Refused ->
    handler_of decode b y net []
    = ([ClientOpen; Called (upstream_get b y); ClientClose], inl ConnectError)
    /\ serve (Gateway.app decode) net (inbound GET b x q hs bd)
       = ([ClientOpen; Called (upstream_get b y); ClientClose],
          {| status := 500; content_type := "text/plain; charset=utf-8";
             body := "Internal Server Error" |}).
Proof.
  intros decode net b x y q hs bd Hx Hnet.
  assert (Hf : fetched decode net b y = inl ConnectError)
    by (unfold fetched; rewrite Hnet; reflexivity).
  split.
  - rewrite handler_of_run, Hf. reflexivity.
  - rewrite (serve_proxied decode net b x y q hs bd Hx), Hf. reflexivity.
Qed.

Lemma refused_upstream_gives_500_witness :
  handler_of json_loads AuthBackend "login" (fun _ => Refused) []
  = ([ClientOpen; Called (upstream_get AuthBackend "login"); ClientClose],
     inl ConnectError)
  /\ serve (Gateway.app json_loads) (fun _ => Refused)
       (inbound GET AuthBackend "login" "" [] "")
     = ([ClientOpen; Called (upstream_get AuthBackend "login"); ClientClose],
        {| status := 500; content_type := "text/plain; charset=utf-8";
           body := "Internal Server Error" |}).
Proof.
  exact (refused_upstream_gives_500 json_loads (fun _ => Refused) AuthBackend
           "login" "login" "" [] "" eq_refl eq_refl).
Defined.

(** C4, counterexample.  With the upstream silent until the client's
    timeout, [GET /users/123] is not answered 504: the [ReadTimeout] leaves
    the handler and the framework answers 500. *)
Lemma timeout_is_not_504 :
  ~ translates_failure 504 json_loads (fun _ => TimedOut) (get "/users/123").
Proof.
  unfold translates_failure. vm_compute. discriminate.
Qed.

(** C4, amended.  When the client's timeout expires before the upstream of
    a GET that a proxy route binds answers, the one outbound call ends with
    the client's timeout error; leaving the [async with] block closes the
    client, so no client stays open; the handler does not catch the error
    and the caller gets the framework's 500, not a 504 or an
    [UpstreamTimeout]. *)
Theorem timed_out_upstream_gives_500 :
  forall (decode : string -> option json) (net : upstream) (b : backend)
         (x y q : string) (hs : headers) (bd : string),
    path_param x = Some y ->
    net (upstream_get b y) = TimedOut ->
    let run := serve (Gateway.app decode) net (inbound GET b x q hs bd) in
    snd (handler_of decode b y net []) = inl ReadTimeout
    /\ calls (fst run) = [upstream_get b y]
    /\ open_clients 0 (fst run) = 0
    /\ snd run = {| status := 500; content_type := "text/plain; charset=utf-8";
                    body := "Internal Server Error" |}.
Proof.
  intros decode net b x y q hs bd Hx Hnet run.
  assert (Hf : fetched decode net b y = inl ReadTimeout)
    by (unfold fetched; rewrite Hnet; reflexivity).
  subst run. rewrite handler_of_run, (serve_proxied decode net b x y q hs bd Hx), Hf.
  repeat split; reflexivity.
Qed.

Lemma timed_out_upstream_gives_500_witness :
  let run := serve (Gateway.app json_loads) (fun _ => TimedOut)
               (inbound GET UserBackend "123" "" [] "") in
  snd (handler_of json_loads UserBackend "123" (fun _ => TimedOut) [])
  = inl ReadTimeout
  /\ calls (fst run) = [upstream_get UserBackend "123"]
  /\ open_clients 0 (fst run) = 0
  /\ snd run = {| status := 500; content_type := "text/plain; charset=utf-8";
                  body := "Internal Server Error" |}.
Proof.
  exact (timed_out_upstream_gives_500 json_loads (fun _ => TimedOut) UserBackend
           "123" "123" "" [] "" eq_refl eq_refl).
Defined.

(** Whatever the network does, a proxied GET leaves no client open. *)
Lemma proxy_closes_client :
  forall (decode : string -> option json) (net : upstream) (b : backend)
         (x y q : string) (hs : headers) (bd : string),
    path_param x = Some y ->
    open_clients 0 (fst (serve (Gateway.app decode) net (inbound GET b x q hs bd))) = 0.
Proof.
  intros decode net b x y q hs bd Hx.
  rewrite (serve_proxied decode net b x y q hs bd Hx). reflexivity.
Qed.

(** *** Routing *)

Ltac path_forms :=
  repeat match goal with
         | H : match_literal _ _ = true |- _ =>
             apply match_literal_true in H; destruct H as [H|H]
         | H : strip_prefix _ _ = Some _ |- _ => apply strip_prefix_app in H
         end.

Ltac paths_clash := exfalso; path_forms; subst; cbn in *; congruence.

Ltac split_tests path :=
  repeat match goal with
         | |- context [match_literal ?p path] =>
             let E := fresh "E" in destruct (match_literal p path) eqn:E
         | |- context [strip_prefix ?p path] =>
             let E := fresh "E" in
             let rest := fresh "rest" in
             destruct (strip_prefix p path) as [rest|] eqn:E;
             [destruct (convertor_accepts _ rest) | ]
         end.

(** In each application a path is taken by one route at most. *)
Lemma gateway_one_hit : forall decode path,
  List.length (hits (Gateway.app decode) path) <= 1.
Proof.
  intros decode path. unfold hits, Gateway.app, FastAPI. cbn [app filter].
  rewrite !is_hit_page, !is_hit_route0, !is_hit_route1.
  split_tests path; cbn [List.length]; try lia; paths_clash.
Qed.

Lemma auth_one_hit : forall path,
  List.length (hits AuthService.app path) <= 1.
Proof.
  intros path. unfold hits, AuthService.app, FastAPI. cbn [app filter].
  rewrite !is_hit_page, !is_hit_route0.
  split_tests path; cbn [List.length]; try lia; paths_clash.
Qed.

Lemma user_one_hit : forall path,
  List.length (hits UserService.app path) <= 1.
Proof.
  intros path. unfold hits, UserService.app, FastAPI. cbn [app filter].
  rewrite !is_hit_page, !is_hit_route0, !is_hit_route1.
  split_tests path; cbn [List.length]; try lia; paths_clash.
Qed.

(** The claim of C5 at one request: a path under neither proxied prefix is
    answered 404 without an outbound call. *)
Definition unrouted_is_not_found (decode : string -> option json)
  (net : upstream) (req : request) : Prop :=
  (forall b, under_prefix (prefix_of b) (req_path req) = false) ->
  serve (Gateway.app decode) net req
  = ([], json_response 404 (detail "Not Found")).

(** C5, counterexample.  [GET /docs] is under neither [/auth] nor [/users],
    and it is not answered 404: [FastAPI(title=...)] has registered the
    documentation routes, and the gateway answers 200 with the Swagger
    page. *)
Lemma docs_page_is_served :
  ~ unrouted_is_not_found json_loads services (get "/docs").
Proof.
  intros H.
  assert (E : serve (Gateway.app json_loads) services (get "/docs")
              = ([], json_response 404 (detail "Not Found")))
    by (apply H; intros b; destruct b; reflexivity).
  vm_compute in E. discriminate.
Qed.

(** A path that differs from a route's by a trailing slash is redirected,
    not refused. *)
Example health_slash_redirected :
  serve (Gateway.app json_loads) services (get "/health/")
  = ([], {| status := 307; content_type := ""; body := "" |}).
Proof. reflexivity. Qed.

(** C5, amended.  A request whose path is taken by none of the gateway's
    routes (the three decorated ones and the four documentation routes the
    framework registers) causes no outbound call; it is answered 404,
    unless the path turns into one a route takes when a slash is added or
    its trailing slashes are removed, and then it is answered with a 307
    redirect.  And every path is taken by at most one route. *)
Theorem unmatched_not_found :
  forall (decode : string -> option json) (net : upstream),
    (forall req,
        hits (Gateway.app decode) (req_path req) = [] ->
        serve (Gateway.app decode) net req
        = ([], if redirects (Gateway.app decode) (req_path req)
               then {| status := 307; content_type := ""; body := "" |}
               else {| status := 404; content_type := "application/json";
                       body := json_dumps (JDict [("detail", JStr "Not Found")]) |}))
    /\ (forall path, List.length (hits (Gateway.app decode) path) <= 1).
Proof.
  intros decode net. split.
  - intros req H. rewrite (serve_no_hit _ net req H).
    destruct (redirects (Gateway.app decode) (req_path req)); reflexivity.
  - apply gateway_one_hit.
Qed.

Lemma unmatched_not_found_witness :
  serve (Gateway.app json_loads) services (get "/unknown/path")
  = ([], {| status := 404; content_type := "application/json";
            body := json_dumps (JDict [("detail", JStr "Not Found")]) |}).
Proof.
  exact (proj1 (unmatched_not_found json_loads services)
           (get "/unknown/path") eq_refl).
Defined.

(** *** Method, headers and body *)

(** The claim of C6 at one request: a single upstream call that carries the
    inbound request's method and body. *)
Definition forwards_unchanged (decode : string -> option json) (net : upstream)
  (req : request) : Prop :=
  exists rq,
    calls (fst (serve (Gateway.app decode) net req)) = [rq]
    /\ o_method rq = req_method req
    /\ o_body rq = req_body req.

(** C6, counterexample.  [POST /auth/login] with a body is not forwarded at
    all: both proxy routes are registered for GET only and the router
    answers 405 without calling the upstream. *)
Lemma post_not_forwarded :
  ~ forwards_unchanged json_loads services
      (inbound POST AuthBackend "login" "" [("content-type", "application/json")]
         ("{" ++ quote "user" ++ ":" ++ quote "a" ++ "}")).
Proof.
  intros [rq [H _]]. vm_compute in H. discriminate.
Qed.

(** A GET that carries headers and a body is forwarded without them. *)
Example get_forwarded_bare :
  calls (fst (serve (Gateway.app json_loads) services
                (inbound GET AuthBackend "health" "" [("authorization", "Bearer t")]
                   "payload")))
  = [{| o_method := GET; o_url := "http://auth-service:8000/health";
        o_headers := []; o_body := "" |}].
Proof. reflexivity. Qed.

(** C6, amended.  Only GET requests that a proxy route binds are forwarded,
    and they are forwarded as a bare GET: the call of the client carries
    the URL string and nothing else, none of the inbound request's headers
    and no body.  A request with any other method at such a path is
    answered 405 and the client is not called. *)
Theorem forwards_bare_get_only :
  forall (decode : string -> option json) (net : upstream) (m : method)
         (b : backend) (x y q : string) (hs : headers) (bd : string),
    path_param x = Some y ->
    let run := serve (Gateway.app decode) net (inbound m b x q hs bd) in
    fst run
    = (if method_eqb m GET
       then [ClientOpen;
             Called {| o_method := GET; o_url := "http://" ++ host_of b ++ ":8000/" ++ y;
                     o_headers := []; o_body := "" |};
             ClientClose]
       else [])
    /\ snd run
       = (if method_eqb m GET
          then respond (snd (handler_of decode b y net []))
          else {| status := 405; content_type := "application/json";
                  body := json_dumps (JDict [("detail", JStr "Method Not Allowed")]) |}).
Proof.
  intros decode net m b x y q hs bd Hx run. subst run.
  destruct m; cbn [method_eqb];
    try (rewrite (serve_other_method decode net _ b x y q hs bd Hx) by discriminate;
         split; reflexivity).
  rewrite (serve_proxied decode net b x y q hs bd Hx), handler_of_run.
  split; reflexivity.
Qed.

Lemma forwards_bare_get_only_witness :
  serve (Gateway.app json_loads) services
    (inbound POST AuthBackend "login" "" [] "secret")
  = ([], {| status := 405; content_type := "application/json";
            body := json_dumps (JDict [("detail", JStr "Method Not Allowed")]) |}).
Proof.
  assert (H := forwards_bare_get_only json_loads services POST AuthBackend
                 "login" "login" "" [] "secret" eq_refl).
  cbv zeta in H. cbn [method_eqb] in H. destruct H as [H1 H2].
  rewrite (surjective_pairing (serve _ _ _)), H1, H2. reflexivity.
Defined.

(** *** Constant endpoints *)

(** C7.  Every [GET /health] on the gateway is answered with the body
    [{"status":"healthy","service":"gateway"}] (status 200), whatever the
    request carries besides, and without any outbound call. *)
Theorem gateway_health_local :
  forall (decode : string -> option json) (net : upstream)
         (q : string) (hs : headers) (bd : string),
    serve (Gateway.app decode) net
      {| req_method := GET; req_path := "/health"; req_query := q;
         req_headers := hs; req_body := bd |}
    = ([], {| status := 200; content_type := "application/json";
              body := json_dumps (JDict [("status", JStr "healthy");
                                         ("service", JStr "gateway")]) |})
    /\ json_dumps (JDict [("status", JStr "healthy"); ("service", JStr "gateway")])
       = "{" ++ quote "status" ++ ":" ++ quote "healthy" ++ ","
             ++ quote "service" ++ ":" ++ quote "gateway" ++ "}".
Proof.
  intros. split; reflexivity.
Qed.

(** C8.  Every [POST /validate] on the auth service is answered with the
    constant [{"valid": true, "user_id": "123"}], whatever query, headers
    (a token among them) or body the request carries: the stub never
    rejects. *)
Theorem validate_always_valid :
  forall (net : upstream) (q : string) (hs : headers) (bd : string),
    serve AuthService.app net
      {| req_method := POST; req_path := "/validate"; req_query := q;
         req_headers := hs; req_body := bd |}
    = ([], {| status := 200; content_type := "application/json";
              body := json_dumps (JDict [("valid", JBool true);
                                         ("user_id", JStr "123")]) |}).
Proof.
  intros. reflexivity.
Qed.

(** C9.  For every string [user_id] the handler [get_user] returns the
    dictionary with ["id"] equal to [user_id] and the constant name and
    email, and never raises; and every [GET /users/<user_id>] the route
    binds (a non-empty segment without slash) is answered 200 with that
    dictionary, never with a not-found. *)
Theorem get_user_echoes_id :
  forall (net : upstream) (user_id : string),
    (forall tr,
        UserService.get_user user_id net tr
        = (tr, inr (JDict [("id", JStr user_id); ("name", JStr "John Doe");
                           ("email", JStr "john@example.com")])))
    /\ (convertor_accepts StrParam user_id = true ->
        forall (q : string) (hs : headers) (bd : string),
          serve UserService.app net
            {| req_method := GET; req_path := "/users/" ++ user_id; req_query := q;
               req_headers := hs; req_body := bd |}
          = ([], {| status := 200; content_type := "application/json";
                    body := json_dumps
                              (JDict [("id", JStr user_id); ("name", JStr "John Doe");
                                      ("email", JStr "john@example.com")]) |})).
Proof.
  intros net user_id. split; [reflexivity | ].
  intros Hseg q hs bd.
  unfold serve, resolve, UserService.app, FastAPI. cbn [app find_route].
  unfold matches, match_path. cbn [req_path req_method].
  eval_tests. cbv iota. cbn [convertor_binds]. rewrite Hseg. reflexivity.
Qed.

Lemma get_user_echoes_id_witness :
  serve UserService.app services (get "/users/123")
  = ([], {| status := 200; content_type := "application/json";
            body := json_dumps
                      (JDict [("id", JStr "123"); ("name", JStr "John Doe");
                              ("email", JStr "john@example.com")]) |}).
Proof.
  exact (proj2 (get_user_echoes_id services "123") eq_refl "" [] "").
Defined.

(* ------------------------------------------------------------------ *)
(** ** The two services on their own *)

(** X1.  Every [POST /login] on the auth service is answered 200 with the
    same token, whatever query, headers or body the request carries: no
    credential is read, and nothing is sent to any upstream. *)
Theorem login_same_token :
  forall (net : upstream) (q : string) (hs : headers) (bd : string),
    serve AuthService.app net
      {| req_method := POST; req_path := "/login"; req_query := q;
         req_headers := hs; req_body := bd |}
    = ([], {| status := 200; content_type := "application/json";
              body := json_dumps (JDict [("token", JStr "mock-jwt-token")]) |})
    /\ json_dumps (JDict [("token", JStr "mock-jwt-token")])
       = "{" ++ quote "token" ++ ":" ++ quote "mock-jwt-token" ++ "}".
Proof.
  intros. split; reflexivity.
Qed.

(** X2.  The health endpoint of each service names the service it runs in:
    [GET /health] is answered 200 with ["service": "auth"] by the auth
    service and with ["service": "user"] by the user service, for every
    request and network, without any outbound call. *)
Theorem services_health :
  forall (net : upstream) (q : string) (hs : headers) (bd : string),
    let req := {| req_method := GET; req_path := "/health"; req_query := q;
                  req_headers := hs; req_body := bd |} in
    serve AuthService.app net req
    = ([], json_response 200 (JDict [("status", JStr "healthy");
                                     ("service", JStr "auth")]))
    /\ serve UserService.app net req
       = ([], json_response 200 (JDict [("status", JStr "healthy");
                                        ("service", JStr "user")])).
Proof.
  intros. split; reflexivity.
Qed.

(** X3.  The auth service answers by method: [/login] and [/validate] exist
    for POST only and [/health] for GET only, and any other method on one of
    these paths is answered 405 Method Not Allowed, not 404. *)
Theorem auth_method_not_allowed :
  forall (net : upstream) (m : method) (q : string) (hs : headers) (bd : string),
    let on path := {| req_method := m; req_path := path; req_query := q;
                      req_headers := hs; req_body := bd |} in
    let refused := ([], json_response 405 (detail "Method Not Allowed")) in
    serve AuthService.app net (on "/login")
    = (if method_eqb m POST
       then ([], json_response 200 (JDict [("token", JStr "mock-jwt-token")]))
       else refused)
    /\ serve AuthService.app net (on "/validate")
       = (if method_eqb m POST
          then ([], json_response 200 (JDict [("valid", JBool true);
                                              ("user_id", JStr "123")]))
          else refused)
    /\ serve AuthService.app net (on "/health")
       = (if method_eqb m GET
          then ([], json_response 200 (JDict [("status", JStr "healthy");
                                              ("service", JStr "auth")]))
          else refused).
Proof.
  intros net m q hs bd on refused. subst on refused.
  destruct m; repeat split; reflexivity.
Qed.

(** X4.  Every [POST /users] on the user service is answered 200 with the
    constant [{"id": "456", "message": "User created"}], whatever body is
    posted: the new user's data is not read and the id is always the same. *)
Theorem create_user_constant :
  forall (net : upstream) (q : string) (hs : headers) (bd : string),
    serve UserService.app net
      {| req_method := POST; req_path := "/users"; req_query := q;
         req_headers := hs; req_body := bd |}
    = ([], {| status := 200; content_type := "application/json";
              body := json_dumps (JDict [("id", JStr "456");
                                         ("message", JStr "User created")]) |}).
Proof.
  intros. reflexivity.
Qed.

Lemma has_slash_app : forall a b,
  has_slash (a ++ b) = has_slash a || has_slash b.
Proof.
  induction a as [|c a IH]; intros b; simpl; [reflexivity | ].
  rewrite IH. apply orb_assoc.
Qed.

Lemma users_literal_off : forall x,
  match_literal "/users" ("/users/" ++ x) = false.
Proof.
  intros [|c x]; reflexivity.
Qed.

(** What the router of the user service finds for a path under [/users/]. *)
Lemma user_find : forall m x q hs bd,
  find_route UserService.app
    {| req_method := m; req_path := "/users/" ++ x; req_query := q;
       req_headers := hs; req_body := bd |} false
  = if convertor_accepts StrParam x
    then (if method_eqb GET m then Handle (UserService.get_user x)
          else MethodNotAllowed)
    else NotFound.
Proof.
  intros m x q hs bd.
  unfold UserService.app, FastAPI. cbn [app find_route].
  unfold matches, match_path. cbn [req_path req_method].
  rewrite users_literal_off. eval_tests. cbv iota. cbn [convertor_binds route_allows].
  destruct (convertor_accepts StrParam x); [ | reflexivity].
  destruct (method_eqb GET m); reflexivity.
Qed.

(** What the user service does with a GET under [/users/]. *)
Lemma user_get_run : forall net x q hs bd,
  serve UserService.app net
    {| req_method := GET; req_path := "/users/" ++ x; req_query := q;
       req_headers := hs; req_body := bd |}
  = if convertor_accepts StrParam x
    then ([], json_response 200
                (JDict [("id", JStr x); ("name", JStr "John Doe");
                        ("email", JStr "john@example.com")]))
    else ([], if redirects UserService.app ("/users/" ++ x)
              then redirect_response
              else json_response 404 (detail "Not Found")).
Proof.
  intros net x q hs bd. unfold serve, resolve. rewrite user_find.
  cbn [req_path method_eqb].
  destruct (convertor_accepts StrParam x); [reflexivity | ].
  destruct (redirects UserService.app ("/users/" ++ x)); reflexivity.
Qed.

(** X5.  The user service answers a [GET /users/<x>] with 200 exactly when
    [x] is one non-empty path segment; then the body's id is [x].  An [x]
    that continues after a slash, like [a/b], is never taken for an id. *)
Theorem user_found_iff_segment :
  forall (net : upstream) (x q : string) (hs : headers) (bd : string),
    let r := snd (serve UserService.app net
                    {| req_method := GET; req_path := "/users/" ++ x;
                       req_query := q; req_headers := hs; req_body := bd |}) in
    (status r = 200%Z <-> (x <> "" /\ has_slash x = false))
    /\ (status r = 200%Z ->
        body r = json_dumps (JDict [("id", JStr x); ("name", JStr "John Doe");
                                    ("email", JStr "john@example.com")]))
    /\ (forall a b, x = a ++ "/" ++ b -> status r <> 200%Z).
Proof.
  intros net x q hs bd r. subst r. rewrite user_get_run.
  assert (Hacc : convertor_accepts StrParam x = true
                 <-> (x <> "" /\ has_slash x = false)).
  { unfold convertor_accepts. rewrite andb_true_iff, !negb_true_iff.
    rewrite String.eqb_neq. tauto. }
  destruct (convertor_accepts StrParam x).
  - destruct (proj1 Hacc eq_refl) as [Hne Hsl]. cbn.
    split; [ | split].
    + split; intros _; [split; assumption | reflexivity].
    + reflexivity.
    + intros a b -> _.
      rewrite has_slash_app in Hsl. cbn in Hsl. rewrite orb_true_r in Hsl.
      discriminate.
  - assert (Hst : status (snd (@nil event,
                     if redirects UserService.app ("/users/" ++ x)
                     then redirect_response
                     else json_response 404 (detail "Not Found"))) <> 200%Z)
      by (destruct (redirects UserService.app ("/users/" ++ x)); discriminate).
    split; [ | split].
    + split; [intros H; contradiction | ].
      intros H. apply Hacc in H. discriminate.
    + intros H. contradiction.
    + intros a b _. exact Hst.
Qed.

Lemma user_found_iff_segment_witness :
  body (snd (serve UserService.app services (get "/users/123")))
  = json_dumps (JDict [("id", JStr "123"); ("name", JStr "John Doe");
                       ("email", JStr "john@example.com")])
  /\ status (snd (serve UserService.app services (get "/users/a/b"))) <> 200%Z.
Proof.
  split.
  - exact (proj1 (proj2 (user_found_iff_segment services "123" "" [] "")) eq_refl).
  - exact (proj2 (proj2 (user_found_iff_segment services "a/b" "" [] ""))
             "a" "b" eq_refl).
Defined.

(** X6.  On the user service the collection [/users] takes POST only and a
    user path [/users/<id>] takes GET only: any other method there is
    answered 405 and no handler runs. *)
Theorem user_method_not_allowed :
  forall (net : upstream) (m : method) (user_id q : string) (hs : headers)
         (bd : string),
    convertor_accepts StrParam user_id = true ->
    let on path := {| req_method := m; req_path := path; req_query := q;
                      req_headers := hs; req_body := bd |} in
    let refused := ([], json_response 405 (detail "Method Not Allowed")) in
    serve UserService.app net (on "/users")
    = (if method_eqb m POST
       then ([], json_response 200 (JDict [("id", JStr "456");
                                           ("message", JStr "User created")]))
       else refused)
    /\ serve UserService.app net (on ("/users/" ++ user_id))
       = (if method_eqb m GET
          then ([], json_response 200
                      (JDict [("id", JStr user_id); ("name", JStr "John Doe");
                              ("email", JStr "john@example.com")]))
          else refused).
Proof.
  intros net m user_id q hs bd Hseg on refused. subst on refused. split.
  - destruct m; reflexivity.
  - unfold serve, resolve. rewrite user_find, Hseg.
    destruct m; reflexivity.
Qed.

Lemma user_method_not_allowed_witness :
  serve UserService.app services
    {| req_method := DELETE; req_path := "/users/123"; req_query := "";
       req_headers := []; req_body := "" |}
  = ([], json_response 405 (detail "Method Not Allowed")).
Proof.
  exact (proj2 (user_method_not_allowed services DELETE "123" "" [] "" eq_refl)).
Defined.

(* ------------------------------------------------------------------ *)
(** ** The gateway and its upstreams *)

(** X7.  Whatever the request and the network, a call of the HTTP client by
    the gateway is a bare GET (the URL string, no headers, no body) whose
    URL string is [http://<host>:8000/] followed by what one of the two
    proxy routes binds of the request path, and the request is a GET under
    that route's prefix.  No other address is called and nothing of the
    inbound headers or body is handed to the client. *)
Theorem gateway_calls_only_bare_get :
  forall (decode : string -> option json) (net : upstream) (req : request)
         (rq : out_request),
    In rq (calls (fst (serve (Gateway.app decode) net req))) ->
    req_method req = GET
    /\ exists b x y,
         req_path req = prefix_of b ++ "/" ++ x
         /\ path_param x = Some y
         /\ rq = {| o_method := GET; o_url := "http://" ++ host_of b ++ ":8000/" ++ y;
                    o_headers := []; o_body := "" |}.
Proof.
  intros decode net req rq Hin.
  destruct (gateway_cases decode net req) as [H|(b & x & y & Hp & Hx & Hm & H)];
    rewrite H in Hin; cbn in Hin; try contradiction.
  destruct Hin as [<-|[]]. split; [exact Hm | ].
  exists b, x, y. repeat split; assumption.
Qed.

Lemma gateway_calls_only_bare_get_witness :
  req_method (get "/auth/login") = GET
  /\ exists b x y,
       req_path (get "/auth/login") = prefix_of b ++ "/" ++ x
       /\ path_param x = Some y
       /\ upstream_get AuthBackend "login"
          = {| o_method := GET; o_url := "http://" ++ host_of b ++ ":8000/" ++ y;
               o_headers := []; o_body := "" |}.
Proof.
  exact (gateway_calls_only_bare_get json_loads services (get "/auth/login")
           (upstream_get AuthBackend "login") (or_introl eq_refl)).
Defined.

(** X8.  Whatever the request and the network, the gateway makes at most
    one outbound call and leaves no client open. *)
Lemma gateway_one_call_at_most :
  forall (decode : string -> option json) (net : upstream) (req : request),
    List.length (calls (fst (serve (Gateway.app decode) net req))) <= 1
    /\ open_clients 0 (fst (serve (Gateway.app decode) net req)) = 0.
Proof.
  intros decode net req.
  destruct (gateway_cases decode net req) as [H|(b & x & y & _ & _ & _ & H)];
    rewrite H; cbn; split; auto.
Qed.

(** X9.  A GET that a proxy route binds is answered with status 200 or with
    the 500 answer and nothing else: 200 exactly when the upstream answered
    with a body that decodes to a value the framework can render, whatever
    status the upstream gave, and 500 in every other case.  An upstream's
    own error status (401, 404, 503, ...) never reaches the caller as a
    status. *)
Theorem proxied_status_200_or_500 :
  forall (decode : string -> option json) (net : upstream) (b : backend)
         (x y q : string) (hs : headers) (bd : string),
    path_param x = Some y ->
    let r := snd (serve (Gateway.app decode) net (inbound GET b x q hs bd)) in
    (status r = 200%Z \/ r = internal_server_error)
    /\ (status r = 200%Z
        <-> exists u v, net (upstream_get b y) = Replied u
                        /\ decode (up_content u) = Some v
                        /\ renderable (jsonable_encoder v) = true).
Proof.
  intros decode net b x y q hs bd Hx r. subst r.
  rewrite (serve_proxied decode net b x y q hs bd Hx). unfold fetched.
  destruct (net (upstream_get b y)) as [u| | |]; cbn [snd respond];
    try (split; [right; reflexivity | ];
         split; [discriminate | intros (u & v & Hu & _); discriminate]).
  destruct (decode (up_content u)) as [v|] eqn:E; cbn [respond].
  - destruct (renderable (jsonable_encoder v)) eqn:Er.
    + split; [left; reflexivity | ].
      split; [intros _; exists u, v; repeat split; assumption | reflexivity].
    + split; [right; reflexivity | ].
      split; [discriminate | ].
      intros (u' & v' & Hu & Hv & Hr). inversion Hu; subst u'. congruence.
  - split; [right; reflexivity | ].
    split; [discriminate | ].
    intros (u' & v' & Hu & Hv & _). inversion Hu; subst u'. congruence.
Qed.

Lemma proxied_status_200_or_500_witness :
  status (snd (serve (Gateway.app json_loads) services
                 (inbound GET UserBackend "123" "" [] ""))) = 200%Z.
Proof.
  apply (proj2 (proj2 (proxied_status_200_or_500 json_loads services UserBackend
                         "123" "123" "" [] "" eq_refl))).
  exists {| up_status := 404; up_content_type := "application/json";
            up_content := json_dumps (detail "Not Found") |},
         (detail "Not Found").
  repeat split.
Defined.

(** The routes of the two services that run a handler for a GET. *)
Lemma auth_get_resolution : forall path q hs bd act,
  resolve AuthService.app
    {| req_method := GET; req_path := path; req_query := q;
       req_headers := hs; req_body := bd |} = Handle act ->
  act = AuthService.health.
Proof.
  intros path q hs bd act H. apply resolve_handle in H.
  destruct (find_route_handle _ _ _ _ H) as (r & Hin & Hm & Ha).
  unfold AuthService.app, FastAPI in Hin. cbn [app] in Hin.
  cbn [req_path req_method] in Hm, Ha.
  destruct Hin as [<-|[<-|[<-|[<-|[<-|[<-|[<-|[]]]]]]]]; cbn [match_path] in Hm;
    try (destruct (match_literal _ path); discriminate);
    try discriminate Ha.
  destruct (match_literal "/health" path); [ | discriminate].
  inversion Hm. reflexivity.
Qed.

Lemma user_get_resolution : forall path q hs bd act,
  resolve UserService.app
    {| req_method := GET; req_path := path; req_query := q;
       req_headers := hs; req_body := bd |} = Handle act ->
  act = UserService.health
  \/ exists user_id, path = "/users/" ++ user_id
                     /\ act = UserService.get_user user_id.
Proof.
  intros path q hs bd act H. apply resolve_handle in H.
  destruct (find_route_handle _ _ _ _ H) as (r & Hin & Hm & Ha).
  unfold UserService.app, FastAPI in Hin. cbn [app] in Hin.
  cbn [req_path req_method] in Hm, Ha.
  destruct Hin as [<-|[<-|[<-|[<-|[<-|[<-|[<-|[]]]]]]]]; cbn [match_path] in Hm;
    try (destruct (match_literal _ path); discriminate);
    try discriminate Ha.
  - destruct (match_literal "/health" path); [ | discriminate].
    inversion Hm. left. reflexivity.
  - destruct (strip_prefix "/users/" path) as [x|] eqn:E; [ | discriminate].
    apply strip_prefix_app in E. cbn [convertor_binds] in Hm.
    destruct (convertor_accepts StrParam x); [ | discriminate].
    inversion Hm. right. exists x. split; [exact E | reflexivity].
Qed.

(** X10.  Nothing the gateway sends can reach [login], [validate] or
    [create_user]: every call of the client is a GET, and at whatever path
    it arrives, the only handler the auth service runs for it is its
    [health] and the only handlers the user service runs for it are its
    [health] and [get_user]; otherwise the service answers without running
    a handler of the source (a page of the framework, a redirect, 405 or
    404).  The three POST endpoints are out of the gateway's reach. *)
Theorem post_endpoints_unreachable :
  forall (decode : string -> option json) (net : upstream) (req : request)
         (rq : out_request) (path : string),
    In rq (calls (fst (serve (Gateway.app decode) net req))) ->
    let at_auth := resolve AuthService.app (upstream_request rq path) in
    let at_user := resolve UserService.app (upstream_request rq path) in
    (forall act, at_auth = Handle act -> act = AuthService.health)
    /\ (forall act, at_user = Handle act ->
                    act = UserService.health
                    \/ exists user_id, path = "/users/" ++ user_id
                                       /\ act = UserService.get_user user_id).
Proof.
  intros decode net req rq path Hin at_auth at_user. subst at_auth at_user.
  destruct (gateway_cases decode net req) as [H|(b & x & y & _ & _ & _ & H)];
    rewrite H in Hin; cbn in Hin; try contradiction.
  destruct Hin as [<-|[]]. unfold upstream_request, upstream_get.
  cbn [o_method o_headers o_body]. split.
  - intros act. apply auth_get_resolution.
  - intros act. apply user_get_resolution.
Qed.

Lemma post_endpoints_unreachable_witness :
  resolve AuthService.app
    (upstream_request (upstream_get AuthBackend "health") "/health")
  = Handle AuthService.health
  /\ AuthService.health = AuthService.health.
Proof.
  split; [reflexivity | ].
  exact (proj1 (post_endpoints_unreachable json_loads services
                  (get "/auth/health") (upstream_get AuthBackend "health")
                  "/health" (or_introl eq_refl))
           AuthService.health eq_refl).
Defined.

(** The handlers a GET can reach differ from the ones it cannot. *)
Example login_is_not_health :
  AuthService.login <> AuthService.health
  /\ AuthService.validate <> AuthService.health
  /\ UserService.create_user <> UserService.health
  /\ forall user_id, UserService.create_user <> UserService.get_user user_id.
Proof.
  assert (D : forall h h' : M json,
             h (fun _ => Refused) [] <> h' (fun _ => Refused) [] -> h <> h')
    by (intros h h' Hd E; apply Hd; rewrite E; reflexivity).
  split; [ | split; [ | split; [ | intros user_id]]]; apply D; discriminate.
Qed.

(** X11.  A body in the compact JSON form passes the gateway unchanged:
    when a proxy route binds the request, the upstream's body is the
    rendering of a value [v] that the encoder leaves as it is (no key
    starts with [_sa]) and that the renderer accepts (no float that is not
    finite), and the decoder reads that rendering back as [v], then the
    gateway's body is byte for byte the upstream's; and when the upstream
    answered 200 with content type [application/json], the whole response
    is the upstream's. *)
Theorem compact_json_passes_unchanged :
  forall (decode : string -> option json) (net : upstream) (b : backend)
         (x y q : string) (hs : headers) (bd : string) (u : up_response) (v : json),
    path_param x = Some y ->
    net (upstream_get b y) = Replied u ->
    up_content u = json_dumps v ->
    decode (json_dumps v) = Some v ->
    jsonable_encoder v = v ->
    renderable v = true ->
    let r := snd (serve (Gateway.app decode) net (inbound GET b x q hs bd)) in
    body r = up_content u
    /\ (up_status u = 200%Z -> up_content_type u = "application/json" ->
        r = {| status := up_status u; content_type := up_content_type u;
               body := up_content u |}).
Proof.
  intros decode net b x y q hs bd u v Hx Hnet Hbody Hdec Henc Hren r. subst r.
  rewrite (serve_proxied decode net b x y q hs bd Hx).
  unfold fetched. rewrite Hnet, Hbody, Hdec. cbn [snd respond].
  rewrite Henc, Hren. cbn.
  split; [reflexivity | ].
  intros -> ->. reflexivity.
Qed.

Lemma compact_json_passes_unchanged_witness :
  snd (serve (Gateway.app json_loads) services
         (inbound GET UserBackend "users/123" "" [] ""))
  = {| status := 200; content_type := "application/json";
       body := json_dumps (JDict [("id", JStr "123"); ("name", JStr "John Doe");
                                  ("email", JStr "john@example.com")]) |}.
Proof.
  exact (proj2 (compact_json_passes_unchanged json_loads services UserBackend
                  "users/123" "users/123" "" [] ""
                  {| up_status := 200; up_content_type := "application/json";
                     up_content :=
                       json_dumps (JDict [("id", JStr "123");
                                          ("name", JStr "John Doe");
                                          ("email", JStr "john@example.com")]) |}
                  (JDict [("id", JStr "123"); ("name", JStr "John Doe");
                          ("email", JStr "john@example.com")])
                  eq_refl eq_refl eq_refl eq_refl eq_refl eq_refl) eq_refl eq_refl).
Defined.

(** *** Order of registration *)

Lemma Permutation_hits : forall routes routes' path,
  Permutation routes routes' ->
  Permutation (hits routes path) (hits routes' path).
Proof.
  intros routes routes' path H. unfold hits.
  induction H as [|r l l' _ IH|r r' l|l l' l'' _ IH1 _ IH2]; cbn [filter].
  - constructor.
  - destruct (is_hit path r); [constructor | ]; exact IH.
  - destruct (is_hit path r), (is_hit path r');
      try apply perm_swap; apply Permutation_refl.
  - eapply Permutation_trans; eassumption.
Qed.

Lemma hits_permutation : forall routes routes' path,
  (forall path, List.length (hits routes path) <= 1) ->
  Permutation routes routes' ->
  hits routes' path = hits routes path.
Proof.
  intros routes routes' path Hone Hperm.
  apply (Permutation_hits _ _ path) in Hperm.
  specialize (Hone path).
  destruct (hits routes path) as [|r [|r' l]].
  - apply Permutation_nil. exact Hperm.
  - apply Permutation_length_1_inv. exact Hperm.
  - cbn in Hone. lia.
Qed.

(** A table in which no path is taken by two routes answers the same in
    whatever order its routes stand. *)
Lemma serve_permutation : forall routes routes' net req,
  (forall path, List.length (hits routes path) <= 1) ->
  Permutation routes routes' ->
  serve routes' net req = serve routes net req.
Proof.
  intros routes routes' net req Hone Hperm.
  unfold serve, resolve, redirects.
  rewrite (find_route_hits routes), (find_route_hits routes').
  rewrite !(hits_permutation routes routes' _ Hone Hperm). reflexivity.
Qed.

(** X13.  In each of the three applications no path is taken by two
    routes, so the order in which the handlers are registered does not
    matter: with the same routes in any other order every request gets the
    same answer and causes the same outbound calls. *)
Theorem route_order_immaterial :
  forall (decode : string -> option json) (net : upstream) (req : request)
         (routes : list route),
    (Permutation (Gateway.app decode) routes ->
     serve routes net req = serve (Gateway.app decode) net req)
    /\ (Permutation AuthService.app routes ->
        serve routes net req = serve AuthService.app net req)
    /\ (Permutation UserService.app routes ->
        serve routes net req = serve UserService.app net req).
Proof.
  intros decode net req routes. repeat split; intros H.
  - apply serve_permutation; [apply gateway_one_hit | exact H].
  - apply serve_permutation; [apply auth_one_hit | exact H].
  - apply serve_permutation; [apply user_one_hit | exact H].
Qed.

Lemma route_order_immaterial_witness :
  serve (rev (Gateway.app json_loads)) services (get "/users/users/123")
  = serve (Gateway.app json_loads) services (get "/users/users/123").
Proof.
  exact (proj1 (route_order_immaterial json_loads services
                  (get "/users/users/123") (rev (Gateway.app json_loads)))
           (Permutation_rev (Gateway.app json_loads))).
Defined.
